(** * Adash: a dashboard builder (src/Adash2.py)

    A shallow embedding of the [Adash] class.  The instance's fields are an
    explicit record, its methods are computations in a state-and-exception
    monad in which a raised exception keeps every mutation made before it
    (as in Python), and pandas, plotly and the file system are an interface
    of collaborators the builder is parametrised by. *)

From Stdlib Require Import String Ascii List ZArith Lia Bool.
Import ListNotations.
Open Scope string_scope.

(** ** Python exceptions and results *)

Inductive exn : Type :=
| ValueError (msg : string)   (* every [raise] written in Adash2.py *)
| TypeError                   (* subscripting [None] *)
| AttributeError              (* [.columns] / [.to_html] on a non-DataFrame *)
| IndexError                  (* [columns[i]], [read_html(..)[0]] out of range *)
| LibraryError.               (* an exception raised inside pandas or by the OS *)

Inductive result (A : Type) : Type :=
| Ok (a : A)
| Raise (e : exn).
Arguments Ok {A} a.
Arguments Raise {A} e.

Definition is_raise {A} (r : result A) : bool :=
  match r with Ok _ => false | Raise _ => true end.

(** The messages of the five [raise ValueError(...)] statements, named after
    the error kinds of the specification. *)
Definition UnsupportedFileType : exn :=
  ValueError "Unsupported file type. Please use 'df', 'csv', or 'html'.".
Definition MissingDataOrFigure : exn :=
  ValueError "No data or figure provided. Please input data or pass a Plotly figure.".
Definition UnsupportedChartKind : exn :=
  ValueError "Unsupported plot type. Please use 'line', 'bar', 'scatter', or 'histogram'.".
Definition UnsupportedFileFormat : exn :=
  ValueError "Unsupported file format. Please use a DataFrame, CSV, or HTML file.".
Definition MissingData : exn :=
  ValueError "No data available. Please input data first.".

(** ** External collaborators: pandas, plotly.express, the file system *)

Class Collaborators : Type := {
  DataFrame : Type;
  Figure : Type;
  PyObject : Type;   (* any other Python object: a file handle, a pathlib.Path, a number, ... *)
  (* pandas *)
  df_columns : DataFrame -> list string;          (* df.columns *)
  df_to_html : DataFrame -> string;               (* df.to_html(classes='display', index=False) *)
  pd_read_csv : string -> result DataFrame;       (* pd.read_csv(path) *)
  pd_read_html : string -> result (list DataFrame); (* pd.read_html(path) *)
  pd_read_csv_object : PyObject -> result DataFrame;         (* pd.read_csv(handle) *)
  pd_read_html_object : PyObject -> result (list DataFrame); (* pd.read_html(handle) *)
  (* plotly.express: px.kind(df, x=.., y=..); plotly raises on frames and
     columns it cannot plot, for instance on duplicate column names *)
  px_line : DataFrame -> string -> string -> result Figure;
  px_bar : DataFrame -> string -> string -> result Figure;
  px_scatter : DataFrame -> string -> string -> result Figure;
  px_histogram : DataFrame -> string -> string -> result Figure;
  fig_update_layout : Figure -> string -> Figure; (* fig.update_layout(title_text=..) *)
  (* fig.to_html(full_html=False, include_plotlyjs='cdn'): the markup holds a
     div id that every call draws afresh; the second argument is the id drawn *)
  fig_to_html : Figure -> string -> string;
  (* open(path, 'w') followed by f.write(contents) *)
  write_file : string -> string -> result unit
}.

(** ** String helpers of the Python runtime *)

Definition nl : string := String (ascii_of_nat 10) EmptyString.

(** [sep.join(l)] *)
Definition join (sep : string) (l : list string) : string := String.concat sep l.

(** [s.endswith(suffix)] *)
Definition endswith (s suffix : string) : bool :=
  (String.length suffix <=? String.length s)%nat
  && (substring (String.length s - String.length suffix) (String.length suffix) s =? suffix).

(** [sub in s] *)
Fixpoint contains (sub s : string) : bool :=
  match s with
  | EmptyString => prefix sub EmptyString
  | String _ s' => prefix sub s || contains sub s'
  end.

(** [range(n)] for an integer [n]: empty when [n <= 0]. *)
Definition range (n : Z) : list Z := map Z.of_nat (seq 0 (Z.to_nat n)).

(** [enumerate(l)] *)
Definition enumerate {A} (l : list A) : list (nat * A) := combine (seq 0 (length l)) l.

(** [l[i]] on a sequence. *)
Definition subscript {A} (l : list A) (i : nat) : result A :=
  match nth_error l i with
  | Some a => Ok a
  | None => Raise IndexError
  end.

(** Truthiness of an optional string and of an optional list. *)
Definition truthy_str (o : option string) : bool :=
  match o with
  | Some s => negb (s =? "")
  | None => false
  end.

Definition truthy_list {A} (o : option (list A)) : bool :=
  match o with
  | Some (_ :: _) => true
  | _ => false
  end.

(** ** The page template of [render_dashboard]

    [base_html_template] cut at its three placeholders.  The literals below
    write [~] where the template has a double-quote character ([unq] puts it
    back); the template has no [~] of its own. *)

Definition dquote : ascii := ascii_of_nat 34.

Fixpoint unq (s : string) : string :=
  match s with
  | EmptyString => EmptyString
  | String c s' => String (if Ascii.eqb c "~"%char then dquote else c) (unq s')
  end.

Definition template_0 : string :=
  unq (join nl
    [ "";
      "        <!DOCTYPE html>";
      "        <html lang=~en~>";
      "        <head>";
      "            <meta charset=~UTF-8~>";
      "            <meta name=~viewport~ content=~width=device-width, initial-scale=1.0~>";
      "            <title>" ]).

Definition template_1 : string :=
  unq (join nl
    [ "</title>";
      "            <link href=~https://cdn.datatables.net/1.13.4/css/jquery.dataTables.min.css~ rel=~stylesheet~>";
      "            <link href=~https://cdn.datatables.net/1.13.4/css/dataTables.bootstrap4.min.css~ rel=~stylesheet~>";
      "            <link href=~https://cdn.jsdelivr.net/npm/tailwindcss@^2/dist/tailwind.min.css~ rel=~stylesheet~>";
      "        </head>";
      "        <body>";
      "            <div class=~container mx-auto p-4~>";
      "                <h1 class=~text-3xl font-bold mb-4~>" ]).

Definition template_2 : string :=
  unq (join nl
    [ "</h1>";
      "                " ]).

Definition template_3 : string :=
  unq (join nl
    [ "";
      "            </div>";
      "";
      "            <script src=~https://code.jquery.com/jquery-3.6.0.min.js~></script>";
      "            <script src=~https://cdn.datatables.net/1.13.4/js/jquery.dataTables.min.js~></script>";
      "            <script>";
      "                $(document).ready(function() {";
      "                    $('table').DataTable({";
      "                        ~pagingType~: ~simple_numbers~,";
      "                        ~lengthMenu~: [10, 25, 50, 75, 100],";
      "                        ~pageLength~: 10,";
      "                        ~responsive~: true,";
      "                        ~autoWidth~: false,";
      "                        ~searching~: true,";
      "                        ~ordering~: true,";
      "                        ~info~: true,";
      "                        ~language~: {";
      "                            ~search~: ~Search:~,";
      "                            ~lengthMenu~: ~Show _MENU_ entries~,";
      "                            ~info~: ~Showing _START_ to _END_ of _TOTAL_ entries~,";
      "                            ~paginate~: {";
      "                                ~first~: ~First~,";
      "                                ~last~: ~Last~,";
      "                                ~next~: ~Next~,";
      "                                ~previous~: ~Previous~";
      "                            }";
      "                        }";
      "                    });";
      "                });";
      "            </script>";
      "        </body>";
      "        </html>";
      "        " ]).

(** [Template(base_html_template).render(title=title, content=content)]:
    jinja2 without autoescaping puts [title] at both [{{ title }}] and
    [content] at [{{ content|safe }}], and copies the rest. *)
Definition Template_render (title content : string) : string :=
  template_0 ++ title ++ template_1 ++ title ++ template_2 ++ content ++ template_3.

Section Builder.
Context `{Libs : Collaborators}.

(** ** Data model *)

(** The Python objects a caller passes as [data]. *)
Inductive value : Type :=
| VFrame (df : DataFrame)     (* a pandas DataFrame *)
| VStr (s : string)           (* a str, used as a path *)
| VOther (o : PyObject).      (* any other object, without a DataFrame's attributes *)

(** [{'type': 'plot', 'index': i}] *)
Record col_config : Type := { type : string; index : Z }.
(** [{'columns': [...]}] *)
Record row_config : Type := { columns : list col_config }.
(** [{'rows': [...]}] *)
Record layout : Type := { rows : list row_config }.

(** [{'html': plot_html, 'title': title, 'position': position}] *)
Record plot : Type := { html : string; title : option string; position : string }.

(** The fields of an [Adash] instance. *)
Record Adash : Type := {
  data : option value;
  layout_config : option layout;
  plots_html : list plot;
  tables_html : list string;
  texts_html : list string
}.

(** [Adash.__init__] *)
Definition init : Adash :=
  {| data := None; layout_config := None;
     plots_html := []; tables_html := []; texts_html := [] |}.

Definition set_data (v : option value) (st : Adash) : Adash :=
  {| data := v; layout_config := layout_config st; plots_html := plots_html st;
     tables_html := tables_html st; texts_html := texts_html st |}.

Definition set_layout_config (l : option layout) (st : Adash) : Adash :=
  {| data := data st; layout_config := l; plots_html := plots_html st;
     tables_html := tables_html st; texts_html := texts_html st |}.

Definition append_plot (p : plot) (st : Adash) : Adash :=
  {| data := data st; layout_config := layout_config st;
     plots_html := plots_html st ++ [p];
     tables_html := tables_html st; texts_html := texts_html st |}.

Definition append_table (t : string) (st : Adash) : Adash :=
  {| data := data st; layout_config := layout_config st; plots_html := plots_html st;
     tables_html := tables_html st ++ [t]; texts_html := texts_html st |}.

Definition append_text (t : string) (st : Adash) : Adash :=
  {| data := data st; layout_config := layout_config st; plots_html := plots_html st;
     tables_html := tables_html st; texts_html := texts_html st ++ [t] |}.

(** ** The monad of methods: state that survives a raised exception *)

Definition M (A : Type) : Type := Adash -> result A * Adash.

Definition ret {A} (a : A) : M A := fun st => (Ok a, st).

Definition bind {A B} (m : M A) (f : A -> M B) : M B :=
  fun st =>
    match m st with
    | (Ok a, st') => f a st'
    | (Raise e, st') => (Raise e, st')
    end.

Definition raise {A} (e : exn) : M A := fun st => (Raise e, st).

Definition lift {A} (r : result A) : M A := fun st => (r, st).

Definition get : M Adash := fun st => (Ok st, st).

Definition modify (f : Adash -> Adash) : M unit := fun st => (Ok tt, f st).

Notation "x <- c ;; k" := (bind c (fun x => k))
  (at level 61, c at next level, right associativity).
Notation "c ;; k" := (bind c (fun _ => k))
  (at level 61, right associativity).

(** [for x in l: body(x)] *)
Fixpoint for_each {A} (l : list A) (body : A -> M unit) : M unit :=
  match l with
  | [] => ret tt
  | x :: l' => body x ;; for_each l' body
  end.

(** ** Methods of [Adash] *)

(** [pd.read_csv(data)]: pandas reads a path or a handle, and raises on
    [None] and on a DataFrame. *)
Definition read_csv (d : option value) : result DataFrame :=
  match d with
  | Some (VStr path) => pd_read_csv path
  | Some (VOther o) => pd_read_csv_object o
  | Some (VFrame _) | None => Raise LibraryError
  end.

(** [pd.read_html(data)] *)
Definition read_html (d : option value) : result (list DataFrame) :=
  match d with
  | Some (VStr path) => pd_read_html path
  | Some (VOther o) => pd_read_html_object o
  | Some (VFrame _) | None => Raise LibraryError
  end.

(** [input_file(self, data, file_type='df')] *)
Definition input_file (data_ : option value) (file_type : string) : M unit :=
  if file_type =? "df" then
    modify (set_data data_)
  else if file_type =? "csv" then
    df <- lift (read_csv data_) ;;
    modify (set_data (Some (VFrame df)))
  else if file_type =? "html" then
    dfs <- lift (read_html data_) ;;
    df <- lift (subscript dfs 0) ;;
    modify (set_data (Some (VFrame df)))
  else
    raise UnsupportedFileType.

(** [set_layout(self, layout_array)] *)
Definition set_layout (layout_array : list Z) : M unit :=
  modify (set_layout_config (Some
    {| rows := map (fun '(row, col) =>
                      {| columns := map (fun i => {| type := "plot"; index := i |}) (range col) |})
                   (enumerate layout_array) |})).

(** [self.data], [self.data.columns[0]], [self.data.columns[1]]: the
    arguments of every [px] call. *)
Definition first_two_columns (d : option value) : result (DataFrame * string * string) :=
  match d with
  | Some (VFrame df) =>
      match subscript (df_columns df) 0 with
      | Ok x =>
          match subscript (df_columns df) 1 with
          | Ok y => Ok (df, x, y)
          | Raise e => Raise e
          end
      | Raise e => Raise e
      end
  | _ => Raise AttributeError
  end.

Definition call_px (px : DataFrame -> string -> string -> result Figure)
    (d : option value) : result Figure :=
  match first_two_columns d with
  | Ok (df, x, y) => px df x y
  | Raise e => Raise e
  end.

(** The [if plot_type == ...] chain of the loop body. *)
Definition generate_fig (plot_type : string) (d : option value) : result Figure :=
  if plot_type =? "line" then call_px px_line d
  else if plot_type =? "bar" then call_px px_bar d
  else if plot_type =? "scatter" then call_px px_scatter d
  else if plot_type =? "histogram" then call_px px_histogram d
  else Raise UnsupportedChartKind.

(** The body of the inner loop: one chart built and appended.  [draw n] is
    the div id [to_html] draws when the builder holds [n] charts. *)
Definition plot_slot (plot_type : string) (title : option string) (position : string)
    (draw : nat -> string) : M unit :=
  st <- get ;;
  fig <- lift (generate_fig plot_type (data st)) ;;
  let fig := match title with
             | Some t => fig_update_layout fig t
             | None => fig
             end in
  let plot_html := fig_to_html fig (draw (length (plots_html st))) in
  modify (append_plot {| html := plot_html; title := title; position := position |}).

(** [for i, row_config in enumerate(rows): for col_config in row_config['columns']: body] *)
Definition each_slot (rs : list row_config) (body : nat -> col_config -> M unit) : M unit :=
  for_each (enumerate rs) (fun '(i, row_config) =>
    for_each (columns row_config) (fun col_config => body i col_config)).

(** [self.layout_config['rows']] *)
Definition layout_rows : M (list row_config) :=
  st <- get ;;
  match layout_config st with
  | Some l => ret (rows l)
  | None => raise TypeError
  end.

(** [adash_plot(self, fig=None, plot_type='line', title=None, position='center')].
    [ids] are the div ids the [to_html] calls of this call draw, in the order
    of the calls: [ids j] is drawn when the call has appended [j] charts. *)
Definition adash_plot (fig : option Figure) (plot_type : string)
    (title : option string) (position : string) (ids : nat -> string) : M unit :=
  st <- get ;;
  match data st, fig with
  | None, None => raise MissingDataOrFigure
  | _, _ =>
      match fig with
      | Some f =>
          let plot_html := fig_to_html f (ids 0%nat) in
          modify (append_plot {| html := plot_html; title := title; position := position |})
      | None =>
          rs <- layout_rows ;;
          each_slot rs (fun i col_config =>
            plot_slot plot_type title position
                      (fun n => ids (n - length (plots_html st))%nat))
      end
  end.

(** [self.data.to_html(classes='display', index=False)] *)
Definition value_to_html (v : value) : result string :=
  match v with
  | VFrame df => Ok (df_to_html df)
  | _ => Raise AttributeError
  end.

(** [adash_table(self, data=None)] *)
Definition adash_table (data_ : option value) : M unit :=
  match data_ with
  | Some d =>
      match d with
      | VFrame df => modify (append_table (df_to_html df))
      | VStr s =>
          if endswith s ".csv" then
            df <- lift (pd_read_csv s) ;;
            modify (append_table (df_to_html df))
          else if endswith s ".html" then
            dfs <- lift (pd_read_html s) ;;
            df <- lift (subscript dfs 0) ;;
            modify (append_table (df_to_html df))
          else
            raise UnsupportedFileFormat
      | VOther _ => ret tt
      end
  | None =>
      st <- get ;;
      match data st with
      | Some v =>
          table_html <- lift (value_to_html v) ;;
          modify (append_table table_html)
      | None => raise MissingData
      end
  end.

(** [_get_text_position_class(self, position)] *)
Definition _get_text_position_class (position : string) : string :=
  if position =? "left" then "text-left"
  else if position =? "right" then "text-right"
  else if position =? "justify" then "text-justify"
  else if position =? "start" then "text-start"
  else if position =? "end" then "text-end"
  else "text-center".

(** [_get_title_position_class(self, position)] *)
Definition _get_title_position_class (position : string) : string :=
  if position =? "left" then "text-left"
  else if position =? "right" then "text-right"
  else "text-center".

(** The four blocks of [adash_text], each as the string it adds to
    [text_html].  The heading and the paragraphs are f-strings; the opening
    tags of the two lists are plain string literals in the source, so their
    braces are text. *)
Definition heading_html (position_class : string) (heading : option string) : string :=
  match heading with
  | Some h =>
      if truthy_str heading
      then "<h2 class='text-2xl font-bold " ++ position_class ++ "'>" ++ h ++ "</h2>"
      else ""
  | None => ""
  end.

Definition paragraph_html (position_class line : string) : string :=
  "<p class='mt-2 " ++ position_class ++ "'>" ++ line ++ "</p>".

Definition items_html (items : list string) : string :=
  fold_left (fun text_html item => text_html ++ "<li>" ++ item ++ "</li>") items "".

Definition ol_open : string := "<ol class='mt-2 list-decimal list-inside {position_class}'>".
Definition ul_open : string := "<ul class='mt-2 list-disc list-inside {position_class}'>".

Definition text_fragment (heading : option string) (textlines ordered_list unordered_list : option (list string))
    (position : string) : string :=
  let position_class := _get_text_position_class position in
  let text_html := "" in
  let text_html := text_html ++ heading_html position_class heading in
  let text_html :=
    match textlines with
    | Some ls =>
        if truthy_list textlines
        then fold_left (fun text_html line => text_html ++ paragraph_html position_class line) ls text_html
        else text_html
    | None => text_html
    end in
  let text_html :=
    match ordered_list with
    | Some items =>
        if truthy_list ordered_list
        then text_html ++ ol_open ++ items_html items ++ "</ol>"
        else text_html
    | None => text_html
    end in
  let text_html :=
    match unordered_list with
    | Some items =>
        if truthy_list unordered_list
        then text_html ++ ul_open ++ items_html items ++ "</ul>"
        else text_html
    | None => text_html
    end in
  text_html.

(** [adash_text(self, heading=None, textlines=None, ordered_list=None,
    unordered_list=None, position='center')] *)
Definition adash_text (heading : option string) (textlines ordered_list unordered_list : option (list string))
    (position : string) : M unit :=
  modify (append_text (text_fragment heading textlines ordered_list unordered_list position)).

(** The title heading and markup [render_dashboard] adds for one plot. *)
Definition plot_content (p : plot) : string :=
  let title_html :=
    match title p with
    | Some t =>
        if truthy_str (title p)
        then "<h3 class='text-xl font-semibold " ++ _get_title_position_class (position p)
             ++ "'>" ++ t ++ "</h3>"
        else ""
    | None => ""
    end in
  title_html ++ nl ++ html p ++ nl.

Definition plots_content_of (ps : list plot) : string :=
  fold_left (fun plots_content p => plots_content ++ plot_content p) ps "".

(** [content_html] of [render_dashboard]. *)
Definition content_html_of (st : Adash) : string :=
  let tables_content := join nl (tables_html st) in
  let texts_content := join nl (texts_html st) in
  let plots_content := plots_content_of (plots_html st) in
  tables_content ++ texts_content ++ plots_content.

(** [render_dashboard(self, title='Adash Dashboard')] *)
Definition render_dashboard (title : string) : M string :=
  st <- get ;;
  let content_html := content_html_of st in
  let html_content := Template_render title content_html in
  ret html_content.

(** [save_dashboard(self, output_file)]; the final [print] is left out. *)
Definition save_dashboard (output_file : string) : M unit :=
  html_content <- render_dashboard "Adash Dashboard" ;;
  lift (write_file output_file html_content).

End Builder.

(** ** Vocabulary of the statements *)

Section Vocabulary.
Context `{Libs : Collaborators}.

(** The builder with some plots, tables or texts appended. *)
Definition add_plots (ps : list plot) (st : Adash) : Adash :=
  {| data := data st; layout_config := layout_config st;
     plots_html := plots_html st ++ ps;
     tables_html := tables_html st; texts_html := texts_html st |}.

Definition add_tables (ts : list string) (st : Adash) : Adash :=
  {| data := data st; layout_config := layout_config st; plots_html := plots_html st;
     tables_html := tables_html st ++ ts; texts_html := texts_html st |}.

(** The slots of a layout in row-major order, each with its row number. *)
Definition slots_from (n : nat) (rs : list row_config) : list (nat * col_config) :=
  flat_map (fun '(i, row_config) => map (fun col_config => (i, col_config)) (columns row_config))
           (combine (seq n (length rs)) rs).

Definition row_major_slots (l : layout) : list (nat * col_config) := slots_from 0 (rows l).

(** The total slot count: the sum over the rows of their column counts. *)
Definition total_slots (l : layout) : nat :=
  list_sum (map (fun r => length (columns r)) (rows l)).

(** The chart fragment made from a generated figure, rendered with the div
    id [div_id]. *)
Definition chart_fragment (fig : Figure) (title : option string) (position : string)
    (div_id : string) : plot :=
  let fig := match title with
             | Some t => fig_update_layout fig t
             | None => fig
             end in
  {| html := fig_to_html fig div_id; title := title; position := position |}.

(** The chart kinds of the specification. *)
Definition chart_kinds : list string := ["line"; "bar"; "scatter"; "histogram"].

Definition px_of (plot_type : string) : DataFrame -> string -> string -> result Figure :=
  if plot_type =? "line" then px_line
  else if plot_type =? "bar" then px_bar
  else if plot_type =? "scatter" then px_scatter
  else px_histogram.

(** The alignment values [_get_text_position_class] and
    [_get_title_position_class] tell apart. *)
Definition text_positions : list string := ["left"; "right"; "justify"; "start"; "end"].
Definition title_positions : list string := ["left"; "right"].

(** What a table request yields: the markup it appends, or the exception. *)
Definition table_markup (dataset src : option value) : result (list string) :=
  match src with
  | Some (VFrame df) => Ok [df_to_html df]
  | Some (VStr s) =>
      if endswith s ".csv" then
        match pd_read_csv s with
        | Ok df => Ok [df_to_html df]
        | Raise e => Raise e
        end
      else if endswith s ".html" then
        match pd_read_html s with
        | Ok dfs =>
            match subscript dfs 0 with
            | Ok df => Ok [df_to_html df]
            | Raise e => Raise e
            end
        | Raise e => Raise e
        end
      else Raise UnsupportedFileFormat
  | Some (VOther _) => Ok []
  | None =>
      match dataset with
      | Some v =>
          match value_to_html v with
          | Ok t => Ok [t]
          | Raise e => Raise e
          end
      | None => Raise MissingData
      end
  end.

(** What a chart request yields. *)
Definition chart_markup (dataset : option value) (lay : option layout)
    (fig : option Figure) (plot_type : string) (title : option string) (position : string)
    (ids : nat -> string) : result (list plot) :=
  match fig with
  | Some f => Ok [{| html := fig_to_html f (ids 0%nat); title := title; position := position |}]
  | None =>
      match dataset with
      | None => Raise MissingDataOrFigure
      | Some _ =>
          match lay with
          | None => Raise TypeError
          | Some l =>
              match row_major_slots l with
              | [] => Ok []
              | slots =>
                  match generate_fig plot_type dataset with
                  | Ok g => Ok (map (fun j => chart_fragment g title position (ids j))
                                    (seq 0 (length slots)))
                  | Raise e => Raise e
                  end
              end
          end
      end
  end.

(** The three fragment-adding requests, and a sequence of them issued by a
    caller that goes on after a request that raised. *)
Inductive call : Type :=
| AddTable (data_ : option value)
| AddText (heading : option string) (textlines ordered_list unordered_list : option (list string))
          (position : string)
| AddChart (fig : option Figure) (plot_type : string) (title : option string) (position : string)
           (ids : nat -> string).

Definition perform_call (c : call) : M unit :=
  match c with
  | AddTable d => adash_table d
  | AddText h ls ol ul p => adash_text h ls ol ul p
  | AddChart f k t p ids => adash_plot f k t p ids
  end.

Definition run_calls (cs : list call) (st : Adash) : Adash :=
  fold_left (fun st c => snd (perform_call c st)) cs st.

(** The fragments one request contributes to each category, given the
    dataset and the layout of the builder. *)
Definition table_fragments (dataset : option value) (c : call) : list string :=
  match c with
  | AddTable src =>
      match table_markup dataset src with
      | Ok ts => ts
      | Raise _ => []
      end
  | _ => []
  end.

Definition text_fragments (c : call) : list string :=
  match c with
  | AddText h ls ol ul p => [text_fragment h ls ol ul p]
  | _ => []
  end.

Definition chart_fragments (dataset : option value) (lay : option layout) (c : call) : list plot :=
  match c with
  | AddChart f k t p ids =>
      match chart_markup dataset lay f k t p ids with
      | Ok ps => ps
      | Raise _ => []
      end
  | _ => []
  end.

(** The markup of one chart on the page, written out: a third-level heading
    with the title, when there is a non-empty one, aligned left or right when
    the position says so and centred otherwise; then the chart's own markup
    between two newlines. *)
Definition title_heading (p : plot) : string :=
  match title p with
  | Some t =>
      if t =? "" then ""
      else "<h3 class='text-xl font-semibold "
           ++ (if position p =? "left" then "text-left"
               else if position p =? "right" then "text-right"
               else "text-center")
           ++ "'>" ++ t ++ "</h3>"
  | None => ""
  end.

Definition chart_block (p : plot) : string := title_heading p ++ nl ++ html p ++ nl.

(** The category of a request. *)
Definition is_table (c : call) : bool := match c with AddTable _ => true | _ => false end.
Definition is_text (c : call) : bool := match c with AddText _ _ _ _ _ => true | _ => false end.
Definition is_chart (c : call) : bool := match c with AddChart _ _ _ _ _ => true | _ => false end.

(** Every operation of the builder, its result forgotten. *)
Inductive operation : Type :=
| InputFile (data_ : option value) (file_type : string)
| SetLayout (layout_array : list Z)
| Request (c : call)
| RenderDashboard (title : string)
| SaveDashboard (output_file : string).

Definition perform (op : operation) : M unit :=
  match op with
  | InputFile d k => input_file d k
  | SetLayout a => set_layout a
  | Request c => perform_call c
  | RenderDashboard t => bind (render_dashboard t) (fun _ => ret tt)
  | SaveDashboard f => save_dashboard f
  end.

End Vocabulary.

(** ** Scripts: operations in sequence *)

Section Scripts.
Context `{Libs : Collaborators}.

(** A script calls operations one after the other and stops at the first
    one that raises. *)
Definition run_script (ops : list operation) : M unit := for_each ops perform.

(** The builder after a sequence of operations whose caller goes on after
    one that raised. *)
Definition run_operations (ops : list operation) (st : Adash) : Adash :=
  fold_left (fun st op => snd (perform op st)) ops st.

(** [l'] is [l] with elements added at its end. *)
Definition extends {A} (l l' : list A) : Prop := exists more, l' = (l ++ more)%list.

(** The script under [if __name__ == "__main__":], for the DataFrame [df] it
    builds, the four figures it gets from plotly for it and the div id each
    of them is rendered with. *)
Definition main_script (df : DataFrame) (fig_line fig_bar fig_scatter fig_histogram : Figure)
    (id_line id_bar id_scatter id_histogram : string) : M unit :=
  run_script
    [ InputFile (Some (VFrame df)) "df";
      SetLayout [2; 3]%Z;
      Request (AddTable None);
      Request (AddChart (Some fig_line) "line" (Some "Line Plot") "left" (fun _ => id_line));
      Request (AddChart (Some fig_bar) "line" (Some "Bar Plot") "center" (fun _ => id_bar));
      Request (AddChart (Some fig_scatter) "line" (Some "Scatter Plot") "right"
                        (fun _ => id_scatter));
      Request (AddChart (Some fig_histogram) "line" (Some "Histogram") "center"
                        (fun _ => id_histogram));
      Request (AddText (Some "Summary Section")
                       (Some ["This is a summary of the data.";
                              "The following points are noteworthy."])
                       (Some ["First important point"; "Second important point"])
                       (Some ["Additional note A"; "Additional note B"])
                       "left");
      SaveDashboard "dashboard18.html" ].

End Scripts.

(** ** The blocks of a text fragment, one by one *)

(** The strings of a list, one after the other. *)
Definition flatten (l : list string) : string := fold_right String.append "" l.

Definition li_html (item : string) : string := "<li>" ++ item ++ "</li>".

(** One paragraph per line. *)
Definition paragraphs_block (position_class : string) (textlines : option (list string)) : string :=
  match textlines with
  | Some ls => flatten (map (paragraph_html position_class) ls)
  | None => ""
  end.

(** A list between its tags, or nothing for an absent or empty list. *)
Definition list_block (open_tag close_tag : string) (items : option (list string)) : string :=
  match items with
  | Some (i :: rest) => open_tag ++ flatten (map li_html (i :: rest)) ++ close_tag
  | _ => ""
  end.

(** The file types [input_file] knows. *)
Definition file_types : list string := ["df"; "csv"; "html"].

(** An instance of the collaborators to run the builder on: a frame is its
    list of column names, a figure is a string, and plotting a column against
    itself raises. *)
Definition demo_px (kind : string) (df : list string) (x y : string) : result string :=
  if x =? y then Raise (ValueError "duplicate column names")
  else Ok (kind ++ ":" ++ x ++ "," ++ y).

Definition demo : Collaborators :=
  {| DataFrame := list string;
     Figure := string;
     PyObject := unit;
     df_columns := fun df => df;
     df_to_html := fun df => "<table>" ++ join "," df ++ "</table>";
     pd_read_csv := fun path => Ok [path];
     pd_read_html := fun path => Ok [[path]];
     pd_read_csv_object := fun o => Raise LibraryError;
     pd_read_html_object := fun o => Raise LibraryError;
     px_line := demo_px "line";
     px_bar := demo_px "bar";
     px_scatter := demo_px "scatter";
     px_histogram := demo_px "histogram";
     fig_update_layout := fun fig t => fig ++ ";" ++ t;
     fig_to_html := fun fig div_id => "<div id='" ++ div_id ++ "'>" ++ fig ++ "</div>";
     write_file := fun path contents => Ok tt |}.

(** Div ids to run the builder with: the [n]-th is [id] followed by [n]
    letters [u]. *)
Fixpoint demo_ids (n : nat) : string :=
  match n with
  | O => "id"
  | S n' => demo_ids n' ++ "u"
  end.

(** A frame of [demo] with the given column names. *)
Definition frame (cols : list string) : @value demo := @VFrame demo cols.

(** A builder with a two-column dataset loaded and no layout set. *)
Definition loaded : @Adash demo :=
  snd (input_file (Some (frame ["x"; "y"])) "df" init).

(** The same with the layout [[2, 1]], and with the layout [[0]]. *)
Definition two_and_one : @Adash demo := snd (set_layout [2; 1]%Z loaded).
Definition no_slot : @Adash demo := snd (set_layout [0]%Z loaded).


(** A builder whose dataset has two columns of the same name, with the
    layout [[2, 1]]. *)
Definition same_names : @Adash demo :=
  snd (set_layout [2; 1]%Z (snd (input_file (Some (frame ["a"; "a"])) "df" init))).

(** ** Strings: suffixes *)

Lemma append_assoc (a b c : string) : (a ++ b) ++ c = a ++ (b ++ c).
Proof. induction a as [|x a IH]; simpl; [reflexivity | now rewrite IH]. Qed.

Lemma append_empty_r (a : string) : a ++ "" = a.
Proof. induction a as [|x a IH]; simpl; [reflexivity | now rewrite IH]. Qed.

Lemma length_append (a b : string) :
  String.length (a ++ b) = (String.length a + String.length b)%nat.
Proof. induction a as [|x a IH]; simpl; [reflexivity | now rewrite IH]. Qed.

Lemma substring_whole (s : string) : substring 0 (String.length s) s = s.
Proof. induction s as [|x s IH]; simpl; [reflexivity | now rewrite IH]. Qed.

Lemma substring_after (a s : string) (m : nat) :
  substring (String.length a) m (a ++ s) = substring 0 m s.
Proof. induction a as [|x a IH]; simpl; [reflexivity | exact IH]. Qed.

Lemma substring_split (s : string) :
  forall n m, (n + m = String.length s)%nat -> s = substring 0 n s ++ substring n m s.
Proof.
  induction s as [|x s IH]; intros n m H; simpl in H.
  - destruct n, m; try discriminate. reflexivity.
  - destruct n as [|n]; simpl.
    + destruct m as [|m]; [discriminate|]. simpl in H. injection H as H.
      subst m. now rewrite substring_whole.
    + injection H as H. now rewrite <- (IH n m H).
Qed.

(** [endswith] holds exactly of the strings that are some string followed by
    the suffix. *)
Lemma endswith_append (a suffix : string) : endswith (a ++ suffix) suffix = true.
Proof.
  unfold endswith. rewrite length_append.
  apply andb_true_intro; split.
  - apply Nat.leb_le. lia.
  - replace (String.length a + String.length suffix - String.length suffix)%nat
      with (String.length a) by lia.
    rewrite substring_after, substring_whole. apply String.eqb_refl.
Qed.

Lemma endswith_inv (s suffix : string) :
  endswith s suffix = true -> exists a, s = a ++ suffix.
Proof.
  unfold endswith. intro H. apply andb_prop in H as [Hlen Heq].
  apply Nat.leb_le in Hlen. apply String.eqb_eq in Heq.
  exists (substring 0 (String.length s - String.length suffix) s).
  transitivity (substring 0 (String.length s - String.length suffix) s
                ++ substring (String.length s - String.length suffix) (String.length suffix) s).
  - apply substring_split. lia.
  - now rewrite Heq.
Qed.

Lemma not_endswith (s suffix : string) :
  (forall a, s <> a ++ suffix) -> endswith s suffix = false.
Proof.
  intro H. destruct (endswith s suffix) eqn:E; [|reflexivity].
  apply endswith_inv in E as [a Ha]. now destruct (H a).
Qed.

Lemma list_ascii_of_append (a b : string) :
  list_ascii_of_string (a ++ b) = (list_ascii_of_string a ++ list_ascii_of_string b)%list.
Proof. induction a as [|x a IH]; simpl; [reflexivity | now rewrite IH]. Qed.

(** A path that ends in [.html] does not end in [.csv]. *)
Lemma html_is_not_csv (a : string) : endswith (a ++ ".html") ".csv" = false.
Proof.
  destruct (endswith (a ++ ".html") ".csv") eqn:E; [|reflexivity].
  apply endswith_inv in E as [b Hb].
  apply (f_equal list_ascii_of_string) in Hb.
  rewrite !list_ascii_of_append in Hb. simpl in Hb.
  assert (H : ((list_ascii_of_string a ++ ["."; "h"; "t"; "m"]) ++ ["l"]
               = (list_ascii_of_string b ++ ["."; "c"; "s"]) ++ ["v"])%list%char).
  { rewrite <- !app_assoc. exact Hb. }
  apply app_inj_tail in H as [_ H]. discriminate.
Qed.

Lemma fold_left_append {A} (f : A -> string) (l : list A) :
  forall init, fold_left (fun acc x => acc ++ f x) l init = init ++ flatten (map f l).
Proof.
  induction l as [|x l IH]; intro init; simpl.
  - now rewrite append_empty_r.
  - now rewrite IH, append_assoc.
Qed.

Lemma extends_refl {A} (l : list A) : extends l l.
Proof. exists []. now rewrite app_nil_r. Qed.

Lemma extends_trans {A} (l1 l2 l3 : list A) : extends l1 l2 -> extends l2 l3 -> extends l1 l3.
Proof. intros [a ->] [b ->]. exists (a ++ b)%list. now rewrite app_assoc. Qed.

(** ** How each method runs *)

(** Unfolds the monad's operations in the goal and the hypotheses. *)
Ltac run_monad := unfold bind, ret, raise, lift, get, modify in *; simpl in *.

Section Runs.
Context `{Libs : Collaborators}.

Lemma add_plots_nil (st : Adash) : add_plots [] st = st.
Proof. destruct st; unfold add_plots; simpl; now rewrite app_nil_r. Qed.

Lemma add_tables_nil (st : Adash) : add_tables [] st = st.
Proof. destruct st; unfold add_tables; simpl; now rewrite app_nil_r. Qed.

Lemma add_plots_append (p : plot) (ps : list plot) (st : Adash) :
  add_plots ps (append_plot p st) = add_plots (p :: ps) st.
Proof. unfold add_plots, append_plot; simpl; now rewrite <- app_assoc. Qed.

Lemma add_plots_twice (ps qs : list plot) (st : Adash) :
  add_plots qs (add_plots ps st) = add_plots (ps ++ qs)%list st.
Proof. unfold add_plots; simpl; now rewrite <- app_assoc. Qed.

Lemma map_const_map {A B C} (f : A -> B) (c : C) (l : list A) :
  map (fun _ => c) (map f l) = map (fun _ => c) l.
Proof. now rewrite map_map. Qed.

Lemma slots_from_cons (n : nat) (r : row_config) (rs : list row_config) :
  slots_from n (r :: rs)
  = (map (fun col_config => (n, col_config)) (columns r) ++ slots_from (S n) rs)%list.
Proof. reflexivity. Qed.

Lemma slots_from_length (rs : list row_config) :
  forall n, length (slots_from n rs) = list_sum (map (fun r => length (columns r)) rs).
Proof.
  induction rs as [|r rs IH]; intro n.
  - reflexivity.
  - rewrite slots_from_cons, length_app, length_map, IH. reflexivity.
Qed.

Lemma row_major_slots_length (l : layout) : length (row_major_slots l) = total_slots l.
Proof. apply slots_from_length. Qed.

(** One slot: the chart is appended, or the exception leaves the builder as
    it was. *)
Lemma plot_slot_run (ty : string) (t : option string) (p : string) (draw : nat -> string)
    (st : Adash) :
  plot_slot ty t p draw st =
  match generate_fig ty (data st) with
  | Ok g => (Ok tt, append_plot (chart_fragment g t p (draw (length (plots_html st)))) st)
  | Raise e => (Raise e, st)
  end.
Proof.
  unfold plot_slot; run_monad.
  destruct (generate_fig ty (data st)); reflexivity.
Qed.

(** The nested loop runs its body on the slots in row-major order. *)
Lemma each_slot_row_major (body : nat -> col_config -> M unit) :
  forall (rs : list row_config) (n : nat) (st : Adash),
    for_each (combine (seq n (length rs)) rs)
             (fun '(i, row_config) =>
                for_each (columns row_config) (fun col_config => body i col_config)) st
    = for_each (slots_from n rs) (fun '(i, col_config) => body i col_config) st.
Proof.
  assert (Happ : forall (A : Type) (f : A -> M unit) (l1 l2 : list A) (st : Adash),
             for_each (l1 ++ l2) f st = bind (for_each l1 f) (fun _ => for_each l2 f) st).
  { intros A f l1. induction l1 as [|x l1 IH]; intros l2 st; simpl.
    - reflexivity.
    - unfold bind.
      destruct (f x st) as [[[]|e] st1]; [|reflexivity].
      rewrite IH. reflexivity. }
  assert (Hmap : forall (i : nat) (cols : list col_config) (st : Adash),
             for_each (map (fun col_config => (i, col_config)) cols)
                      (fun '(i, col_config) => body i col_config) st
             = for_each cols (fun col_config => body i col_config) st).
  { intros i cols. induction cols as [|c cols IH]; intro st; simpl; [reflexivity|].
    unfold bind. destruct (body i c st) as [[[]|e] st1]; [apply IH | reflexivity]. }
  induction rs as [|r rs IH]; intros n st.
  - reflexivity.
  - rewrite slots_from_cons, Happ. simpl. unfold bind.
    rewrite Hmap.
    destruct (for_each (columns r) (fun col_config => body n col_config) st) as [[[]|e] st1];
      [apply IH | reflexivity].
Qed.

Section Loops.
Variables (ty : string) (t : option string) (p : string) (ids : nat -> string) (n0 : nat).

Let draw (n : nat) : string := ids (n - n0)%nat.

Let loop (slots : list (nat * col_config)) : M unit :=
  for_each slots (fun '(i, col_config) => plot_slot ty t p draw).

Lemma loop_ok (g : Figure) :
  forall slots j st,
    generate_fig ty (data st) = Ok g -> length (plots_html st) = (n0 + j)%nat ->
    loop slots st
    = (Ok tt, add_plots (map (fun i => chart_fragment g t p (ids i)) (seq j (length slots))) st).
Proof.
  induction slots as [|[i c] slots IH]; intros j st Hg Hn; unfold loop in *; simpl.
  - now rewrite add_plots_nil.
  - unfold bind. rewrite plot_slot_run, Hg.
    rewrite (IH (S j)).
    + rewrite add_plots_append. unfold draw. rewrite Hn.
      replace (n0 + j - n0)%nat with j by lia. reflexivity.
    + exact Hg.
    + simpl. rewrite length_app, Hn. simpl. lia.
Qed.

Lemma loop_raise (e : exn) :
  forall slots st, generate_fig ty (data st) = Raise e ->
    loop slots st = match slots with
                    | [] => (Ok tt, st)
                    | _ => (Raise e, st)
                    end.
Proof.
  intros [|[i c] slots] st Hg; [reflexivity|].
  unfold loop; simpl. unfold bind. now rewrite plot_slot_run, Hg.
Qed.

End Loops.

(** [adash_plot] as a whole: the fragments of [chart_markup] appended, or its
    exception raised with the builder as it was. *)
Lemma adash_plot_run (ty : string) (t : option string) (p : string) (ids : nat -> string)
    (f : option Figure) (st : Adash) :
  adash_plot f ty t p ids st =
  match chart_markup (data st) (layout_config st) f ty t p ids with
  | Ok ps => (Ok tt, add_plots ps st)
  | Raise e => (Raise e, st)
  end.
Proof.
  unfold adash_plot, chart_markup, bind at 1, get.
  destruct f as [f|].
  - destruct (data st); reflexivity.
  - destruct (data st) as [v|] eqn:Hd; [|reflexivity].
    unfold layout_rows, bind at 1, get, bind at 1.
    destruct (layout_config st) as [l|]; [|reflexivity].
    unfold ret, each_slot, enumerate, row_major_slots.
    rewrite (each_slot_row_major
               (fun i col_config =>
                  plot_slot ty t p (fun n => ids (n - length (plots_html st))%nat))).
    destruct (generate_fig ty (Some v)) as [g|e] eqn:Hg.
    + rewrite (loop_ok ty t p ids (length (plots_html st)) g _ 0%nat)
        by (rewrite ?Hd; auto).
      destruct (slots_from 0 (rows l)); reflexivity.
    + rewrite (loop_raise ty t p ids (length (plots_html st)) e) by (now rewrite Hd).
      destruct (slots_from 0 (rows l)); [now rewrite add_plots_nil | reflexivity].
Qed.

Lemma adash_table_run (src : option value) (st : Adash) :
  adash_table src st =
  match table_markup (data st) src with
  | Ok ts => (Ok tt, add_tables ts st)
  | Raise e => (Raise e, st)
  end.
Proof.
  unfold adash_table, table_markup.
  destruct src as [[df|s|]|]; run_monad.
  - reflexivity.
  - destruct (endswith s ".csv").
    + destruct (pd_read_csv s); reflexivity.
    + destruct (endswith s ".html"); [|reflexivity].
      destruct (pd_read_html s) as [dfs|]; [|reflexivity].
      destruct (subscript dfs 0); reflexivity.
  - now rewrite add_tables_nil.
  - destruct (data st) as [v|]; [|reflexivity].
    destruct (value_to_html v); reflexivity.
Qed.

Lemma adash_text_run (h : option string) (ls ol ul : option (list string)) (p : string) (st : Adash) :
  adash_text h ls ol ul p st = (Ok tt, append_text (text_fragment h ls ol ul p) st).
Proof. reflexivity. Qed.

Lemma render_dashboard_run (title : string) (st : Adash) :
  render_dashboard title st = (Ok (Template_render title (content_html_of st)), st).
Proof. reflexivity. Qed.

Lemma set_layout_run (layout_array : list Z) (st : Adash) :
  exists l, set_layout layout_array st = (Ok tt, set_layout_config (Some l) st)
            /\ map (fun r => length (columns r)) (rows l) = map Z.to_nat layout_array.
Proof.
  eexists; split; [reflexivity|]. simpl.
  unfold enumerate. generalize 0%nat.
  induction layout_array as [|c cs IH]; intro n; simpl; [reflexivity|].
  rewrite IH. f_equal. unfold range. now rewrite !length_map, length_seq.
Qed.

End Runs.

(** ** Properties of the builder *)

Section Claims.
Context `{Libs : Collaborators}.

(** A chart kind of the enumerated set has its [px] call made on the
    dataset's first two columns. *)
Lemma generate_fig_valid (kind : string) (df : DataFrame) (x y : string) (cols : list string) :
  In kind chart_kinds -> df_columns df = x :: y :: cols ->
  generate_fig kind (Some (VFrame df)) = px_of kind df x y.
Proof.
  intros Hk Hc.
  assert (Hcall : forall px, call_px px (Some (VFrame df)) = px df x y).
  { intro px. unfold call_px, first_two_columns, subscript. now rewrite Hc. }
  unfold chart_kinds in Hk. simpl in Hk.
  destruct Hk as [<-|[<-|[<-|[<-|[]]]]]; unfold generate_fig, px_of; simpl; apply Hcall.
Qed.

(** A kind outside the set reaches the final [else] of the chain. *)
Lemma generate_fig_unsupported (kind : string) (d : option value) :
  ~ In kind chart_kinds -> generate_fig kind d = Raise UnsupportedChartKind.
Proof.
  intro Hk. unfold generate_fig.
  destruct (String.eqb_spec kind "line") as [->|_]; [exfalso; apply Hk; simpl; tauto|].
  destruct (String.eqb_spec kind "bar") as [->|_]; [exfalso; apply Hk; simpl; tauto|].
  destruct (String.eqb_spec kind "scatter") as [->|_]; [exfalso; apply Hk; simpl; tauto|].
  destruct (String.eqb_spec kind "histogram") as [->|_]; [exfalso; apply Hk; simpl; tauto|].
  reflexivity.
Qed.

(** With at least one slot in the layout an unsupported kind is refused at
    the first slot; with none the loop body, and its check, never runs. *)
Lemma adash_plot_unsupported_kind (kind : string) (title : option string) (position : string)
    (ids : nat -> string) (st : Adash) (v : value) (l : layout) :
  ~ In kind chart_kinds -> data st = Some v -> layout_config st = Some l ->
  adash_plot None kind title position ids st =
  match row_major_slots l with
  | [] => (Ok tt, st)
  | _ => (Raise UnsupportedChartKind, st)
  end.
Proof.
  intros Hk Hd Hl. rewrite adash_plot_run. unfold chart_markup. rewrite Hd, Hl.
  rewrite generate_fig_unsupported by exact Hk.
  destruct (row_major_slots l); [now rewrite add_plots_nil | reflexivity].
Qed.

(** The requests leave the dataset and the layout alone and extend each
    fragment sequence by their own category's fragments. *)
Lemma perform_call_fields (c : call) (st : Adash) :
  let st' := snd (perform_call c st) in
  data st' = data st /\ layout_config st' = layout_config st
  /\ tables_html st' = (tables_html st ++ table_fragments (data st) c)%list
  /\ texts_html st' = (texts_html st ++ text_fragments c)%list
  /\ plots_html st' = (plots_html st ++ chart_fragments (data st) (layout_config st) c)%list.
Proof.
  destruct c as [src|h ls ol ul p|f k t p ids]; simpl.
  - rewrite adash_table_run.
    destruct (table_markup (data st) src); simpl; rewrite ?app_nil_r; auto.
  - rewrite ?app_nil_r; auto.
  - rewrite adash_plot_run.
    destruct (chart_markup (data st) (layout_config st) f k t p ids); simpl;
      rewrite ?app_nil_r; auto.
Qed.

Lemma run_calls_fields (cs : list call) :
  forall st,
  let st' := run_calls cs st in
  data st' = data st /\ layout_config st' = layout_config st
  /\ tables_html st' = (tables_html st ++ flat_map (table_fragments (data st)) cs)%list
  /\ texts_html st' = (texts_html st ++ flat_map text_fragments cs)%list
  /\ plots_html st' = (plots_html st ++ flat_map (chart_fragments (data st) (layout_config st)) cs)%list.
Proof.
  induction cs as [|c cs IH]; intro st; simpl.
  - rewrite !app_nil_r; auto.
  - destruct (perform_call_fields c st) as (Hd & Hl & Ht & Hx & Hp).
    destruct (IH (snd (perform_call c st))) as (Hd' & Hl' & Ht' & Hx' & Hp').
    unfold run_calls in *.
    rewrite Hd', Hl', Ht', Hx', Hp', Hd, Hl, Ht, Hx, Hp, !app_assoc. auto.
Qed.

Lemma flat_map_filter {A B} (f : A -> list B) (keep : A -> bool) (l : list A) :
  (forall a, keep a = false -> f a = []) -> flat_map f (filter keep l) = flat_map f l.
Proof.
  intro Hf. induction l as [|a l IH]; simpl; [reflexivity|].
  destruct (keep a) eqn:Hk; simpl; rewrite IH; [reflexivity|].
  now rewrite (Hf a Hk).
Qed.

(** Two request sequences that agree category by category give the same
    page body, however the categories are interleaved in each. *)
Lemma same_requests_same_content (cs1 cs2 : list call) (st : Adash) :
  filter is_table cs1 = filter is_table cs2 ->
  filter is_text cs1 = filter is_text cs2 ->
  filter is_chart cs1 = filter is_chart cs2 ->
  content_html_of (run_calls cs1 st) = content_html_of (run_calls cs2 st).
Proof.
  intros Ht Hx Hp.
  destruct (run_calls_fields cs1 st) as (_ & _ & Ht1 & Hx1 & Hp1).
  destruct (run_calls_fields cs2 st) as (_ & _ & Ht2 & Hx2 & Hp2).
  unfold content_html_of. rewrite Ht1, Hx1, Hp1, Ht2, Hx2, Hp2.
  rewrite <- (flat_map_filter (table_fragments (data st)) is_table cs1),
          <- (flat_map_filter (table_fragments (data st)) is_table cs2),
          <- (flat_map_filter text_fragments is_text cs1),
          <- (flat_map_filter text_fragments is_text cs2),
          <- (flat_map_filter (chart_fragments (data st) (layout_config st)) is_chart cs1),
          <- (flat_map_filter (chart_fragments (data st) (layout_config st)) is_chart cs2);
    try (intros [| |]; simpl; intros; congruence).
  now rewrite Ht, Hx, Hp.
Qed.

(** The blocks of a text fragment that are f-strings carry the class. *)
Lemma heading_html_class (position : string) (h : string) :
  h <> "" ->
  heading_html (_get_text_position_class position) (Some h)
  = "<h2 class='text-2xl font-bold " ++ _get_text_position_class position ++ "'>" ++ h ++ "</h2>".
Proof.
  intro Hh. unfold heading_html, truthy_str.
  destruct (String.eqb_spec h ""); [contradiction | reflexivity].
Qed.

(** The two list blocks are the same whatever the position. *)
Lemma list_blocks_ignore_position (ol ul : option (list string)) (p q : string) :
  text_fragment None None ol ul p = text_fragment None None ol ul q.
Proof. reflexivity. Qed.

(** C1 (amended).  With a dataset loaded and no layout set, [adash_plot]
    without a prebuilt figure appends no chart fragment and leaves the whole
    builder as it was, but the call does not return: subscripting the unset
    layout raises [TypeError], for every kind, in the enumerated set or not. *)
Theorem adash_plot_without_layout :
  forall (plot_type : string) (title : option string) (position : string)
         (ids : nat -> string) (st : Adash) (v : value),
    data st = Some v -> layout_config st = None ->
    adash_plot None plot_type title position ids st = (Raise TypeError, st).
Proof.
  intros plot_type title position ids st v Hd Hl.
  rewrite adash_plot_run. unfold chart_markup. now rewrite Hd, Hl.
Qed.

(** C2 (amended).  [set_layout] never fails, whatever the counts: it stores a
    layout with one row per count, the row of count [c] holding the slots
    indexed [0 .. c-1], so that a negative count gives a row of zero slots. *)
Theorem set_layout_never_fails :
  forall (layout_array : list Z) (st : Adash),
  exists l : layout,
    set_layout layout_array st = (Ok tt, set_layout_config (Some l) st)
    /\ rows l = map (fun col => {| columns := map (fun i => {| type := "plot"; index := i |})
                                                 (range col) |}) layout_array
    /\ map (fun r => Z.of_nat (length (columns r))) (rows l) = map (Z.max 0) layout_array.
Proof.
  intros layout_array st. eexists. split; [reflexivity|]. simpl.
  unfold enumerate. generalize 0%nat.
  induction layout_array as [|c cs IH]; intro n; simpl; [split; reflexivity|].
  destruct (IH (S n)) as [IH1 IH2]. split; [now rewrite IH1|].
  rewrite IH2. f_equal. unfold range. rewrite !length_map, length_seq. lia.
Qed.

(** The page content [render_dashboard] builds, with every chart written
    out: the tables joined by newlines, then the texts joined by newlines,
    then for each chart its title heading and its markup. *)
Lemma content_html_of_blocks (st : Adash) :
  content_html_of st
  = join nl (tables_html st) ++ join nl (texts_html st)
    ++ flatten (map chart_block (plots_html st)).
Proof.
  unfold content_html_of, plots_content_of.
  rewrite (fold_left_append plot_content). simpl.
  do 3 f_equal. apply map_ext. intro p.
  unfold plot_content, chart_block, title_heading, _get_title_position_class, truthy_str.
  destruct (title p) as [t|]; [|reflexivity].
  destruct (t =? ""); reflexivity.
Qed.

(** C4.  After any sequence of table, text and chart requests, each fragment
    sequence holds the fragments of its own category's requests in the order
    they were issued, and the rendered page is the template, with the title
    in its two places, around all the table markup, then all the text markup,
    then, for every chart in order, its title heading (if it has a non-empty
    title) and its own markup between newlines. *)
Theorem render_orders_categories :
  forall (cs : list call) (st : Adash) (title : string),
    let st' := run_calls cs st in
    tables_html st' = (tables_html st ++ flat_map (table_fragments (data st)) cs)%list
    /\ texts_html st' = (texts_html st ++ flat_map text_fragments cs)%list
    /\ plots_html st' =
       (plots_html st ++ flat_map (chart_fragments (data st) (layout_config st)) cs)%list
    /\ render_dashboard title st' =
       (Ok (template_0 ++ title ++ template_1 ++ title ++ template_2
            ++ join nl (tables_html st')
            ++ join nl (texts_html st')
            ++ flatten (map chart_block (plots_html st'))
            ++ template_3),
        st').
Proof.
  intros cs st title st'.
  destruct (run_calls_fields cs st) as (_ & _ & Ht & Hx & Hp).
  repeat split; try assumption.
  rewrite render_dashboard_run. unfold Template_render.
  rewrite content_html_of_blocks, !append_assoc. reflexivity.
Qed.


(** C7.  An operation that raises leaves the builder as it was: the dataset,
    the layout and the three fragment sequences are those before the call. *)
Theorem failed_operation_leaves_builder_unchanged :
  forall (op : operation) (st : Adash) (e : exn),
    fst (perform op st) = Raise e -> snd (perform op st) = st.
Proof.
  intros [d k|a|[src|h ls ol ul p|f ty t p ids]|t|f] st e; simpl.
  - unfold input_file.
    destruct (k =? "df"); [discriminate|].
    destruct (k =? "csv").
    { run_monad. destruct (read_csv d); [discriminate | reflexivity]. }
    destruct (k =? "html"); [|reflexivity].
    run_monad. destruct (read_html d) as [dfs|]; [|reflexivity].
    destruct (subscript dfs 0); [discriminate | reflexivity].
  - discriminate.
  - rewrite adash_table_run. destruct (table_markup (data st) src); [discriminate | reflexivity].
  - discriminate.
  - rewrite adash_plot_run.
    destruct (chart_markup (data st) (layout_config st) f ty t p ids);
      [discriminate | reflexivity].
  - discriminate.
  - unfold save_dashboard. run_monad.
    destruct (write_file f _); reflexivity.
Qed.

(** C8.  [render_dashboard] always returns a page and leaves the builder as
    it was, and a second call with the same title returns the same page. *)
Theorem render_dashboard_idempotent :
  forall (st : Adash) (title : string),
  exists page : string,
    render_dashboard title st = (Ok page, st)
    /\ bind (render_dashboard title)
            (fun first => bind (render_dashboard title) (fun second => ret (first, second))) st
       = (Ok (page, page), st).
Proof.
  intros st title. eexists. split; reflexivity.
Qed.

(** C9.  A position outside {left, right, justify, start, end} resolves to
    the centre class for text, a position outside {left, right} resolves to
    the centre class for chart titles, and a recognised position resolves to
    the class named after it. *)
Theorem position_falls_back_to_center :
  forall position : string,
    (~ In position text_positions -> _get_text_position_class position = "text-center")
    /\ (~ In position title_positions -> _get_title_position_class position = "text-center")
    /\ (In position text_positions -> _get_text_position_class position = "text-" ++ position)
    /\ (In position title_positions -> _get_title_position_class position = "text-" ++ position).
Proof.
  intro position. unfold text_positions, title_positions.
  repeat split.
  - intro H. unfold _get_text_position_class.
    repeat match goal with
    | |- context [?a =? ?b] => destruct (String.eqb_spec a b) as [->|_]; [exfalso; apply H; simpl; tauto|]
    end. reflexivity.
  - intro H. unfold _get_title_position_class.
    repeat match goal with
    | |- context [?a =? ?b] => destruct (String.eqb_spec a b) as [->|_]; [exfalso; apply H; simpl; tauto|]
    end. reflexivity.
  - simpl. intros [<-|[<-|[<-|[<-|[<-|[]]]]]]; reflexivity.
  - simpl. intros [<-|[<-|[]]]; reflexivity.
Qed.

(** C10.  [adash_text] with no heading, no lines and no lists appends exactly
    one text fragment, the empty string; and for every combination of
    arguments it returns without raising, having appended exactly one
    fragment and touched nothing else. *)
Theorem adash_text_always_appends_one :
  forall (position : string) (st : Adash),
    adash_text None None None None position st = (Ok tt, append_text "" st)
    /\ forall (heading : option string) (textlines ordered_list unordered_list : option (list string)),
       exists fragment : string,
         adash_text heading textlines ordered_list unordered_list position st
         = (Ok tt, append_text fragment st)
         /\ texts_html (append_text fragment st) = (texts_html st ++ [fragment])%list.
Proof.
  intros position st. split; [reflexivity|].
  intros heading textlines ordered_list unordered_list.
  eexists. split; reflexivity.
Qed.

End Claims.

(** ** The builder run on the [demo] collaborators: concrete instances *)

(** C1, at a concrete builder: the dataset is loaded, no layout is set, the
    kind is valid, and the call raises instead of returning. *)
Lemma adash_plot_without_layout_raises :
  In "line" chart_kinds
  /\ data loaded = Some (frame ["x"; "y"]) /\ layout_config loaded = None
  /\ fst (adash_plot None "line" None "center" demo_ids loaded) = Raise TypeError
  /\ is_raise (fst (adash_plot None "line" None "center" demo_ids loaded)) = true.
Proof.
  split; [simpl; auto|]. repeat split; reflexivity.
Qed.

(** The amended C1 at [loaded], for the kind [bar]. *)
Lemma adash_plot_without_layout_witness :
  data loaded = Some (frame ["x"; "y"]) /\ layout_config loaded = None
  /\ adash_plot None "bar" (Some "Sales") "left" demo_ids loaded = (Raise TypeError, loaded).
Proof.
  split; [reflexivity|]. split; [reflexivity|].
  apply (adash_plot_without_layout (Libs := demo) "bar" (Some "Sales") "left" demo_ids loaded (frame ["x"; "y"]));
    reflexivity.
Defined.

(** C2, at a concrete input: a layout array with a negative count is
    accepted, the call returns and stores a row without slots for it. *)
Lemma set_layout_accepts_negative_count :
  (exists c : Z, In c [2; -1]%Z /\ (c < 0)%Z)
  /\ set_layout (Libs := demo) [2; -1]%Z init
     = (Ok tt,
        set_layout_config
          (Some {| rows := [ {| columns := [ {| type := "plot"; index := 0 |};
                                             {| type := "plot"; index := 1 |} ] |};
                             {| columns := [] |} ] |})
          init)
  /\ is_raise (fst (set_layout (Libs := demo) [2; -1]%Z init)) = false.
Proof.
  split; [exists (-1)%Z; simpl; split; [auto | lia]|].
  split; reflexivity.
Qed.

(** C3, at the failing input: with a dataset loaded and the layout [[0]]
    set, a kind outside the enumerated set is not refused; the call returns
    and the builder is as before. *)
Theorem unsupported_kind_passes_on_empty_layout :
  ~ In "pie" chart_kinds
  /\ data no_slot = Some (frame ["x"; "y"])
  /\ layout_config no_slot = Some {| rows := [ {| columns := [] |} ] |}
  /\ adash_plot None "pie" None "center" demo_ids no_slot = (Ok tt, no_slot).
Proof.
  split.
  - simpl. intros [H|[H|[H|[H|[]]]]]; discriminate.
  - repeat split; reflexivity.
Qed.


(** C5, on a dataset of two columns of the same name: plotly's call raises
    and no fragment is appended ([demo] refuses to plot a column against
    itself). *)
Lemma adash_plot_px_raises_at_same_names :
  adash_plot None "line" None "center" demo_ids same_names
  = (Raise (ValueError "duplicate column names"), same_names).
Proof. reflexivity. Qed.


(** C6, at the failing input: an ordered and an unordered list with the
    position [left].  Both opening tags hold the text [{position_class}]
    and the fragment holds the class [text-left] nowhere. *)
Theorem list_blocks_miss_alignment_class :
  text_fragment None None (Some ["a"]) (Some ["b"]) "left"
  = "<ol class='mt-2 list-decimal list-inside {position_class}'><li>a</li></ol>"
    ++ "<ul class='mt-2 list-disc list-inside {position_class}'><li>b</li></ul>"
  /\ _get_text_position_class "left" = "text-left"
  /\ contains "text-left" (text_fragment None None (Some ["a"]) (Some ["b"]) "left") = false
  /\ contains "text-left" (text_fragment (Some "h") (Some ["l"]) None None "left") = true.
Proof.
  repeat split; reflexivity.
Qed.

(** C7 at [input_file] with the file type [xml]. *)
Lemma failed_operation_leaves_builder_unchanged_witness :
  fst (perform (InputFile (Some (VStr "data.xml")) "xml") two_and_one) = Raise UnsupportedFileType
  /\ snd (perform (InputFile (Some (VStr "data.xml")) "xml") two_and_one) = two_and_one.
Proof.
  split; [reflexivity|].
  apply (failed_operation_leaves_builder_unchanged
           (InputFile (Some (VStr "data.xml")) "xml") two_and_one UnsupportedFileType).
  reflexivity.
Defined.

(** C9 at the positions [top] (text) and [justify] (chart title). *)
Lemma position_falls_back_to_center_witness :
  ~ In "top" text_positions /\ ~ In "justify" title_positions
  /\ _get_text_position_class "top" = "text-center"
  /\ _get_title_position_class "justify" = "text-center".
Proof.
  assert (Htop : ~ In "top" text_positions).
  { simpl. intros [H|[H|[H|[H|[H|[]]]]]]; discriminate. }
  assert (Hjust : ~ In "justify" title_positions).
  { simpl. intros [H|[H|[]]]; discriminate. }
  split; [exact Htop|]. split; [exact Hjust|]. split.
  - exact (proj1 (position_falls_back_to_center "top") Htop).
  - exact (proj1 (proj2 (position_falls_back_to_center "justify")) Hjust).
Defined.

(** ** Further properties of the methods *)

Section Further.
Context `{Libs : Collaborators}.

Lemma plots_content_of_app (ps qs : list plot) :
  plots_content_of (ps ++ qs) = plots_content_of ps ++ plots_content_of qs.
Proof.
  unfold plots_content_of. rewrite fold_left_app, !fold_left_append.
  reflexivity.
Qed.

(** [input_file] either leaves the builder as it was or replaces the dataset. *)
Lemma input_file_state (d : option value) (k : string) (st : Adash) :
  snd (input_file d k st) = st \/ exists v, snd (input_file d k st) = set_data v st.
Proof.
  unfold input_file.
  destruct (k =? "df"); [right; eexists; reflexivity|].
  destruct (k =? "csv").
  { run_monad. destruct (read_csv d); [right; eexists; reflexivity | now left]. }
  destruct (k =? "html"); [|now left].
  run_monad. destruct (read_html d) as [dfs|]; [|now left].
  destruct (subscript dfs 0); [right; eexists; reflexivity | now left].
Qed.

Lemma items_html_flatten (items : list string) :
  items_html items = flatten (map li_html items).
Proof. exact (fold_left_append li_html items ""). Qed.

(** What one operation does to the five fields. *)
Lemma perform_fields (op : operation) (st : Adash) :
  let st' := snd (perform op st) in
  match op with InputFile _ _ => True | _ => data st' = data st end
  /\ match op with SetLayout _ => True | _ => layout_config st' = layout_config st end
  /\ extends (tables_html st) (tables_html st')
  /\ extends (texts_html st) (texts_html st')
  /\ extends (plots_html st) (plots_html st').
Proof.
  destruct op as [d k|a|c|t|f]; simpl.
  - split; [exact I|].
    destruct (input_file_state d k st) as [-> | [v ->]]; simpl; repeat split; apply extends_refl.
  - repeat split; apply extends_refl.
  - destruct (perform_call_fields c st) as (Hd & Hl & Ht & Hx & Hp).
    repeat split; try assumption; eexists; eassumption.
  - repeat split; apply extends_refl.
  - unfold save_dashboard. run_monad.
    repeat split; apply extends_refl.
Qed.

(** X1.  [input_file] with a file type other than [df], [csv] and [html]
    raises the unsupported-file-type [ValueError], whatever the data, and
    leaves the builder as it was. *)
Theorem input_file_rejects_other_types :
  forall (data_ : option value) (file_type : string) (st : Adash),
    ~ In file_type file_types ->
    input_file data_ file_type st = (Raise UnsupportedFileType, st).
Proof.
  intros d k st H. unfold input_file, file_types in *.
  destruct (String.eqb_spec k "df") as [->|_]; [exfalso; apply H; simpl; tauto|].
  destruct (String.eqb_spec k "csv") as [->|_]; [exfalso; apply H; simpl; tauto|].
  destruct (String.eqb_spec k "html") as [->|_]; [exfalso; apply H; simpl; tauto|].
  reflexivity.
Qed.

(** X2.  Loading and then asking for a table without a source renders the
    dataset just loaded, whatever was loaded before: a DataFrame passed as
    [df], the frame [read_csv] returns for [csv], the first of the frames
    [read_html] returns for [html]. *)
Theorem load_then_table_renders_loaded :
  forall (st : Adash) (df : DataFrame),
    let loaded_df := append_table (df_to_html df) (set_data (Some (VFrame df)) st) in
    run_script [InputFile (Some (VFrame df)) "df"; Request (AddTable None)] st
    = (Ok tt, loaded_df)
    /\ (forall path, pd_read_csv path = Ok df ->
          run_script [InputFile (Some (VStr path)) "csv"; Request (AddTable None)] st
          = (Ok tt, loaded_df))
    /\ (forall path more, pd_read_html path = Ok (df :: more) ->
          run_script [InputFile (Some (VStr path)) "html"; Request (AddTable None)] st
          = (Ok tt, loaded_df)).
Proof.
  intros st df loaded_df. split; [reflexivity|]. split.
  - intros path H. unfold run_script. simpl. unfold input_file. simpl.
    run_monad. now rewrite H.
  - intros path more H. unfold run_script. simpl. unfold input_file. simpl.
    run_monad. now rewrite H.
Qed.

(** X3.  A path passed to [input_file] with the file type [df] is stored as
    the dataset as it is, without being read.  The call returns, and the
    failure comes later: a table request without a source raises
    [AttributeError], and so does a chart request of a valid kind once the
    layout has a slot; neither appends anything. *)
Theorem path_stored_as_dataset_fails_later :
  forall (path : string) (st : Adash),
    let st1 := snd (input_file (Some (VStr path)) "df" st) in
    input_file (Some (VStr path)) "df" st = (Ok tt, st1)
    /\ data st1 = Some (VStr path)
    /\ adash_table None st1 = (Raise AttributeError, st1)
    /\ forall (kind : string) (title : option string) (position : string)
              (ids : nat -> string) (l : layout),
         In kind chart_kinds -> layout_config st = Some l -> (1 <= total_slots l)%nat ->
         adash_plot None kind title position ids st1 = (Raise AttributeError, st1).
Proof.
  intros path st st1. split; [reflexivity|]. split; [reflexivity|]. split; [reflexivity|].
  intros kind title position ids l Hk Hl Hs.
  rewrite adash_plot_run. unfold chart_markup. subst st1. simpl. rewrite Hl.
  rewrite <- row_major_slots_length in Hs.
  destruct (row_major_slots l) as [|s0 ss]; [simpl in Hs; lia|].
  unfold chart_kinds in Hk. simpl in Hk.
  destruct Hk as [<-|[<-|[<-|[<-|[]]]]]; reflexivity.
Qed.

(** X4.  After [set_layout] with any counts, one chart request of a valid
    kind, on a dataset of at least two columns for which plotly's call
    returns a figure, appends as many fragments as the sum of the positive
    counts (a zero or negative count adds none and takes none away); the
    [j]-th of them is that figure rendered with the [j]-th div id drawn. *)
Theorem set_layout_then_plot_counts :
  forall (layout_array : list Z) (kind : string) (title : option string) (position : string)
         (ids : nat -> string) (st : Adash) (df : DataFrame) (x y : string)
         (cols : list string) (g : Figure),
    In kind chart_kinds ->
    data st = Some (VFrame df) -> df_columns df = x :: y :: cols ->
    px_of kind df x y = Ok g ->
    let st1 := snd (set_layout layout_array st) in
    exists new : list plot,
      adash_plot None kind title position ids st1 = (Ok tt, add_plots new st1)
      /\ Z.of_nat (length new) = fold_right Z.add 0%Z (map (Z.max 0) layout_array)
      /\ forall j, (j < length new)%nat ->
           nth_error new j = Some (chart_fragment g title position (ids j)).
Proof.
  intros arr kind title position ids st df x y cols g Hk Hd Hc Hpx st1.
  destruct (set_layout_run arr st) as (l & Hrun & Hlen).
  assert (Hst1 : st1 = set_layout_config (Some l) st) by (subst st1; now rewrite Hrun).
  exists (map (fun j => chart_fragment g title position (ids j)) (seq 0 (total_slots l))).
  split; [|split].
  - rewrite adash_plot_run. unfold chart_markup. rewrite Hst1. simpl. rewrite Hd.
    rewrite (generate_fig_valid kind df x y cols Hk Hc), Hpx.
    rewrite <- row_major_slots_length.
    destruct (row_major_slots l); reflexivity.
  - rewrite length_map, length_seq. unfold total_slots. rewrite Hlen.
    clear. induction arr as [|c cs IH]; simpl; [reflexivity|]. lia.
  - intros j Hj. rewrite length_map, length_seq in Hj.
    rewrite nth_error_map, nth_error_seq.
    destruct (Nat.ltb_spec j (total_slots l)); [reflexivity | lia].
Qed.

(** X5.  With a prebuilt figure [adash_plot] never raises and appends exactly
    one fragment, the figure's own markup (rendered once, with the one div
    id the call draws) with the title and position given:
    the kind (supported or not), the dataset and the layout play no part,
    and the title is not written into the figure. *)
Theorem adash_plot_prebuilt_appends_one :
  forall (f : Figure) (plot_type : string) (title : option string) (position : string)
         (ids : nat -> string) (st : Adash),
    adash_plot (Some f) plot_type title position ids st
    = (Ok tt, append_plot {| html := fig_to_html f (ids 0%nat);
                             title := title; position := position |} st).
Proof.
  intros f plot_type title position ids st. unfold adash_plot. run_monad.
  destruct (data st); reflexivity.
Qed.

(** X6.  Without a dataset and without a figure [adash_plot] raises the
    no-data-or-figure [ValueError] before it looks at the kind or at the
    layout, and leaves the builder as it was. *)
Theorem adash_plot_needs_data_or_figure :
  forall (plot_type : string) (title : option string) (position : string)
         (ids : nat -> string) (st : Adash),
    data st = None ->
    adash_plot None plot_type title position ids st = (Raise MissingDataOrFigure, st).
Proof.
  intros plot_type title position ids st H. unfold adash_plot. run_monad. now rewrite H.
Qed.

(** X7.  With a layout of at least one slot, a kind outside the enumerated
    set is refused with the unsupported-plot-type [ValueError] at the first
    slot, before the dataset's columns are read (so whatever the dataset
    is), and nothing is appended. *)
Theorem adash_plot_refuses_unknown_kind :
  forall (kind : string) (title : option string) (position : string)
         (ids : nat -> string) (st : Adash) (v : value) (l : layout),
    ~ In kind chart_kinds ->
    data st = Some v -> layout_config st = Some l -> (1 <= total_slots l)%nat ->
    adash_plot None kind title position ids st = (Raise UnsupportedChartKind, st).
Proof.
  intros kind title position ids st v l Hk Hd Hl Hs.
  rewrite adash_plot_run. unfold chart_markup. rewrite Hd, Hl.
  rewrite generate_fig_unsupported by exact Hk.
  rewrite <- row_major_slots_length in Hs.
  destruct (row_major_slots l); [simpl in Hs; lia | reflexivity].
Qed.

(** X8.  A path source of [adash_table] is dispatched on its ending alone:
    every path that ends in [.csv] goes to [read_csv] and every path that
    ends in [.html] to [read_html], whose first frame is used.  The frame's
    markup is appended; an exception of the reader is passed on and nothing
    is appended. *)
Theorem adash_table_dispatches_on_extension :
  forall (stem : string) (st : Adash),
    adash_table (Some (VStr (stem ++ ".csv"))) st
    = match pd_read_csv (stem ++ ".csv") with
      | Ok df => (Ok tt, append_table (df_to_html df) st)
      | Raise e => (Raise e, st)
      end
    /\ adash_table (Some (VStr (stem ++ ".html"))) st
       = match pd_read_html (stem ++ ".html") with
         | Ok (df :: _) => (Ok tt, append_table (df_to_html df) st)
         | Ok [] => (Raise IndexError, st)
         | Raise e => (Raise e, st)
         end.
Proof.
  intros stem st. split; unfold adash_table.
  - rewrite endswith_append. run_monad.
    destruct (pd_read_csv (stem ++ ".csv")); reflexivity.
  - rewrite html_is_not_csv, endswith_append. run_monad.
    destruct (pd_read_html (stem ++ ".html")) as [[|df more]|]; reflexivity.
Qed.

(** X9.  A path source that ends neither in [.csv] nor in [.html] raises the
    unsupported-file-format [ValueError]; no reader is called and the
    builder is left as it was. *)
Theorem adash_table_rejects_other_paths :
  forall (path : string) (st : Adash),
    (forall stem, path <> stem ++ ".csv") -> (forall stem, path <> stem ++ ".html") ->
    adash_table (Some (VStr path)) st = (Raise UnsupportedFileFormat, st).
Proof.
  intros path st Hcsv Hhtml. unfold adash_table.
  now rewrite (not_endswith path ".csv" Hcsv), (not_endswith path ".html" Hhtml).
Qed.

(** X10.  A DataFrame source is rendered whatever dataset is loaded, even
    none; and when a DataFrame is loaded, a request without a source does
    what a request with that DataFrame as its source does. *)
Theorem adash_table_frame_source :
  forall (df : DataFrame) (st : Adash),
    adash_table (Some (VFrame df)) st = (Ok tt, append_table (df_to_html df) st)
    /\ (data st = Some (VFrame df) -> adash_table None st = adash_table (Some (VFrame df)) st).
Proof.
  intros df st. split; [reflexivity|].
  intro H. unfold adash_table. run_monad. now rewrite H.
Qed.

(** X11.  A table request without a source on a builder without a dataset
    raises the no-data [ValueError] and appends nothing. *)
Theorem adash_table_needs_data :
  forall st : Adash,
    data st = None -> adash_table None st = (Raise MissingData, st).
Proof.
  intros st H. unfold adash_table. run_monad. now rewrite H.
Qed.

(** X12.  A text fragment is four blocks in a fixed order: the heading, the
    paragraphs (one per line, in order), the ordered list and the unordered
    list (their items in order); what each block is depends on its own
    argument and, for the first two, on the position. *)
Theorem text_fragment_blocks :
  forall (heading : option string) (textlines ordered_list unordered_list : option (list string))
         (position : string),
    text_fragment heading textlines ordered_list unordered_list position
    = heading_html (_get_text_position_class position) heading
      ++ paragraphs_block (_get_text_position_class position) textlines
      ++ list_block ol_open "</ol>" ordered_list
      ++ list_block ul_open "</ul>" unordered_list.
Proof.
  intros h ls ol ul p. unfold text_fragment, paragraphs_block, list_block.
  set (H := heading_html _ h). change ("" ++ H) with H.
  destruct ls as [[|l ls]|], ol as [[|o ol]|], ul as [[|u ul]|];
    cbv beta iota delta [truthy_list];
    rewrite ?items_html_flatten, ?fold_left_append, ?append_assoc, ?append_empty_r;
    reflexivity.
Qed.

(** X13.  An empty heading and an empty list count as absent: each can be
    replaced by a missing argument without changing the fragment, and the
    fragment of four empty arguments is the empty string. *)
Theorem text_fragment_empty_is_absent :
  forall (heading : option string) (textlines ordered_list unordered_list : option (list string))
         (position : string),
    text_fragment (Some "") textlines ordered_list unordered_list position
    = text_fragment None textlines ordered_list unordered_list position
    /\ text_fragment heading (Some []) ordered_list unordered_list position
       = text_fragment heading None ordered_list unordered_list position
    /\ text_fragment heading textlines (Some []) unordered_list position
       = text_fragment heading textlines None unordered_list position
    /\ text_fragment heading textlines ordered_list (Some []) position
       = text_fragment heading textlines ordered_list None position
    /\ text_fragment (Some "") (Some []) (Some []) (Some []) position = "".
Proof.
  intros. repeat split; reflexivity.
Qed.

(** X14.  The page depends on the fragments alone: [input_file] and
    [set_layout], whether they return or raise, do not change what
    [render_dashboard] returns. *)
Theorem render_ignores_dataset_and_layout :
  forall (data_ : option value) (file_type : string) (layout_array : list Z)
         (st : Adash) (title : string),
    fst (render_dashboard title (snd (input_file data_ file_type st)))
    = fst (render_dashboard title st)
    /\ fst (render_dashboard title (snd (set_layout layout_array st)))
       = fst (render_dashboard title st).
Proof.
  intros d k a st title. split; [|reflexivity].
  destruct (input_file_state d k st) as [-> | [v ->]]; reflexivity.
Qed.

(** X15.  A builder without fragments renders the template with the title
    in its two places and nothing where the body goes. *)
Theorem render_dashboard_empty_body :
  forall (st : Adash) (title : string),
    tables_html st = [] -> texts_html st = [] -> plots_html st = [] ->
    render_dashboard title st
    = (Ok (template_0 ++ title ++ template_1 ++ title ++ template_2 ++ template_3), st).
Proof.
  intros st title Ht Hx Hp. rewrite render_dashboard_run.
  unfold content_html_of, Template_render. now rewrite Ht, Hx, Hp.
Qed.

(** X16.  A chart request adds its markup at the end of the page body: the
    body after the request is the body before it followed by the markup of
    the fragments the request yields (none when it raises). *)
Theorem chart_request_extends_body :
  forall (f : option Figure) (kind : string) (title : option string) (position : string)
         (ids : nat -> string) (st : Adash),
    content_html_of (snd (adash_plot f kind title position ids st))
    = content_html_of st
      ++ plots_content_of
           (chart_fragments (data st) (layout_config st) (AddChart f kind title position ids)).
Proof.
  intros f kind title position ids st.
  destruct (perform_call_fields (AddChart f kind title position ids) st)
    as (_ & _ & Ht & Hx & Hp).
  simpl in Ht, Hx, Hp. rewrite app_nil_r in Ht, Hx.
  unfold content_html_of. rewrite Ht, Hx, Hp, plots_content_of_app.
  now rewrite !append_assoc.
Qed.


(** X18.  Only [input_file] changes the dataset and only [set_layout]
    changes the layout: every other operation, returning or raising, leaves
    them as they were. *)
Theorem only_setters_change_dataset_and_layout :
  forall (op : operation) (st : Adash),
    match op with
    | InputFile _ _ => True
    | _ => data (snd (perform op st)) = data st
    end
    /\ match op with
       | SetLayout _ => True
       | _ => layout_config (snd (perform op st)) = layout_config st
       end.
Proof.
  intros op st. destruct (perform_fields op st) as (Hd & Hl & _). split; assumption.
Qed.

(** X19.  The fragment sequences only grow at their end: after any sequence
    of operations, each of the three sequences is the earlier one with
    fragments added after it; nothing is removed, replaced or reordered. *)
Theorem fragments_are_append_only :
  forall (ops : list operation) (st : Adash),
    extends (tables_html st) (tables_html (run_operations ops st))
    /\ extends (texts_html st) (texts_html (run_operations ops st))
    /\ extends (plots_html st) (plots_html (run_operations ops st)).
Proof.
  induction ops as [|op ops IH]; intro st; simpl.
  - repeat split; apply extends_refl.
  - destruct (perform_fields op st) as (_ & _ & Ht & Hx & Hp).
    destruct (IH (snd (perform op st))) as (Ht' & Hx' & Hp').
    unfold run_operations in *.
    repeat split; eapply extends_trans; eassumption.
Qed.

(** X20.  The example script raises nothing before the file write, whatever
    the DataFrame, the figures and the div ids drawn: it ends with the write
    of the rendered page to [dashboard18.html], on a builder with one table,
    one text fragment and the four figures in the order they were passed.
    The layout [[2, 3]] it sets has five slots and yields no chart, all four
    charts being prebuilt. *)
Theorem main_script_reaches_save :
  forall (df : DataFrame) (fig_line fig_bar fig_scatter fig_histogram : Figure)
         (id_line id_bar id_scatter id_histogram : string),
  exists (page : string) (final : Adash),
    main_script df fig_line fig_bar fig_scatter fig_histogram
                id_line id_bar id_scatter id_histogram init
    = (write_file "dashboard18.html" page, final)
    /\ render_dashboard "Adash Dashboard" final = (Ok page, final)
    /\ data final = Some (VFrame df)
    /\ (exists l, layout_config final = Some l /\ total_slots l = 5%nat)
    /\ tables_html final = [df_to_html df]
    /\ length (texts_html final) = 1%nat
    /\ map html (plots_html final)
       = [fig_to_html fig_line id_line; fig_to_html fig_bar id_bar;
          fig_to_html fig_scatter id_scatter; fig_to_html fig_histogram id_histogram]
    /\ map title (plots_html final)
       = [Some "Line Plot"; Some "Bar Plot"; Some "Scatter Plot"; Some "Histogram"].
Proof.
  intros df f1 f2 f3 f4 i1 i2 i3 i4.
  pose (final := run_operations
          [ InputFile (Some (VFrame df)) "df";
            SetLayout [2; 3]%Z;
            Request (AddTable None);
            Request (AddChart (Some f1) "line" (Some "Line Plot") "left" (fun _ => i1));
            Request (AddChart (Some f2) "line" (Some "Bar Plot") "center" (fun _ => i2));
            Request (AddChart (Some f3) "line" (Some "Scatter Plot") "right" (fun _ => i3));
            Request (AddChart (Some f4) "line" (Some "Histogram") "center" (fun _ => i4));
            Request (AddText (Some "Summary Section")
                             (Some ["This is a summary of the data.";
                                    "The following points are noteworthy."])
                             (Some ["First important point"; "Second important point"])
                             (Some ["Additional note A"; "Additional note B"])
                             "left") ] init).
  exists (Template_render "Adash Dashboard" (content_html_of final)), final.
  split.
  - unfold main_script, run_script.
    change (for_each ?l perform init) with
      (match write_file "dashboard18.html" (Template_render "Adash Dashboard" (content_html_of final)) with
       | Ok _ => (Ok tt, final)
       | Raise e => (Raise e, final)
       end).
    destruct (write_file _ _) as [[]|]; reflexivity.
  - repeat split; try reflexivity. eexists; split; reflexivity.
Qed.

End Further.

(** ** The further properties at concrete builders *)

(** X1 at the file type [json]. *)
Lemma input_file_rejects_other_types_witness :
  ~ In "json" file_types
  /\ input_file (Some (frame ["x"; "y"])) "json" two_and_one
     = (Raise UnsupportedFileType, two_and_one).
Proof.
  assert (H : ~ In "json" file_types).
  { simpl. intros [H|[H|[H|[]]]]; discriminate. }
  split; [exact H|].
  exact (input_file_rejects_other_types (Libs := demo) (Some (frame ["x"; "y"])) "json"
           two_and_one H).
Defined.

(** X2 at [sales.csv], which [demo] reads as a frame of one column. *)
Lemma load_then_table_renders_loaded_witness :
  pd_read_csv (Collaborators := demo) "sales.csv" = Ok ["sales.csv"]
  /\ run_script [InputFile (Some (VStr "sales.csv")) "csv"; Request (AddTable None)] loaded
     = (Ok tt, append_table "<table>sales.csv</table>"
                 (set_data (Some (frame ["sales.csv"])) loaded)).
Proof.
  split; [reflexivity|].
  exact (proj1 (proj2 (load_then_table_renders_loaded (Libs := demo) loaded ["sales.csv"]))
           "sales.csv" eq_refl).
Defined.

(** X3 at the path [data.csv] and the layout [[2, 1]]. *)
Lemma path_stored_as_dataset_fails_later_witness :
  In "line" chart_kinds
  /\ (exists l, layout_config two_and_one = Some l /\ (1 <= total_slots l)%nat)
  /\ adash_plot None "line" None "center" demo_ids
       (snd (input_file (Some (VStr "data.csv")) "df" two_and_one))
     = (Raise AttributeError, snd (input_file (Some (VStr "data.csv")) "df" two_and_one)).
Proof.
  assert (Hk : In "line" chart_kinds) by (simpl; auto).
  assert (Hs : (1 <= total_slots
                       {| rows := [ {| columns := [ {| type := "plot"; index := 0 |};
                                                    {| type := "plot"; index := 1 |} ] |};
                                    {| columns := [ {| type := "plot"; index := 0 |} ] |} ] |})%nat).
  { unfold total_slots; simpl; lia. }
  split; [exact Hk|]. split; [eexists; split; [reflexivity | exact Hs]|].
  exact (proj2 (proj2 (proj2 (path_stored_as_dataset_fails_later (Libs := demo)
                                "data.csv" two_and_one)))
           "line" None "center" demo_ids _ Hk eq_refl Hs).
Defined.

(** X4 at the counts [[2, -1, 0, 3]]: five charts. *)
Lemma set_layout_then_plot_counts_witness :
  exists new : list (@plot),
    adash_plot None "bar" None "center" demo_ids (snd (set_layout [2; -1; 0; 3]%Z loaded))
    = (Ok tt, add_plots new (snd (set_layout [2; -1; 0; 3]%Z loaded)))
    /\ Z.of_nat (length new) = 5%Z
    /\ forall j, (j < length new)%nat ->
         nth_error new j
         = Some {| html := "<div id='" ++ demo_ids j ++ "'>bar:x,y</div>";
                   title := None; position := "center" |}.
Proof.
  refine (set_layout_then_plot_counts (Libs := demo) [2; -1; 0; 3]%Z "bar" None "center"
            demo_ids loaded ["x"; "y"] "x" "y" [] "bar:x,y" _ _ _ _).
  - simpl; auto.
  - reflexivity.
  - reflexivity.
  - reflexivity.
Defined.

(** X6 at the fresh builder. *)
Lemma adash_plot_needs_data_or_figure_witness :
  data (init (Libs := demo)) = None
  /\ adash_plot None "line" None "center" demo_ids (init (Libs := demo))
     = (Raise MissingDataOrFigure, init).
Proof.
  split; [reflexivity|].
  exact (adash_plot_needs_data_or_figure (Libs := demo) "line" None "center" demo_ids init
           eq_refl).
Defined.

(** X7 at the kind [pie] and the layout [[2, 1]]. *)
Lemma adash_plot_refuses_unknown_kind_witness :
  ~ In "pie" chart_kinds
  /\ adash_plot None "pie" None "center" demo_ids two_and_one = (Raise UnsupportedChartKind, two_and_one).
Proof.
  assert (Hk : ~ In "pie" chart_kinds).
  { simpl. intros [H|[H|[H|[H|[]]]]]; discriminate. }
  split; [exact Hk|].
  refine (adash_plot_refuses_unknown_kind (Libs := demo) "pie" None "center" demo_ids two_and_one
            (frame ["x"; "y"]) _ Hk eq_refl eq_refl _).
  unfold total_slots; simpl; lia.
Defined.

(** X9 at the path [notes.txt]. *)
Lemma adash_table_rejects_other_paths_witness :
  adash_table (Some (VStr "notes.txt")) loaded = (Raise UnsupportedFileFormat, loaded).
Proof.
  apply (adash_table_rejects_other_paths (Libs := demo) "notes.txt" loaded).
  - intros stem H. pose proof (endswith_append stem ".csv") as E.
    rewrite <- H in E. discriminate.
  - intros stem H. pose proof (endswith_append stem ".html") as E.
    rewrite <- H in E. discriminate.
Defined.

(** X10 at the builder [loaded]. *)
Lemma adash_table_frame_source_witness :
  data loaded = Some (frame ["x"; "y"])
  /\ adash_table None loaded = adash_table (Some (frame ["x"; "y"])) loaded.
Proof.
  split; [reflexivity|].
  exact (proj2 (adash_table_frame_source (Libs := demo) ["x"; "y"] loaded) eq_refl).
Defined.

(** X11 at the fresh builder. *)
Lemma adash_table_needs_data_witness :
  data (init (Libs := demo)) = None
  /\ adash_table None (init (Libs := demo)) = (Raise MissingData, init).
Proof.
  split; [reflexivity|].
  exact (adash_table_needs_data (Libs := demo) init eq_refl).
Defined.

(** X15 at a builder with a dataset and a layout and no fragment. *)
Lemma render_dashboard_empty_body_witness :
  render_dashboard "Sales" two_and_one
  = (Ok (template_0 ++ "Sales" ++ template_1 ++ "Sales" ++ template_2 ++ template_3),
     two_and_one).
Proof.
  exact (render_dashboard_empty_body (Libs := demo) two_and_one "Sales" eq_refl eq_refl eq_refl).
Defined.
